(** * The GPU topology classifier of linux-driver-management

    A shallow embedding of [src/lib/gpu-config.c]: the instance structure
    [LdmGPUConfig], the classification cascade [ldm_gpu_config_analyze] with
    its helpers, and the public query accessors.

    Pointers are nullable addresses, reads through a NULL pointer or past
    the end of an array are an explicit [Fault], and the functions that
    write the fields of [self] thread the structure through. *)

From Stdlib Require Import ZArith List Bool Lia.
Import ListNotations.

Local Open Scope Z_scope.

(** ** Outcomes: a value, or a memory fault *)

Inductive outcome (A : Type) : Type :=
| Ret (a : A)
| Fault.

Arguments Ret {A} a.
Arguments Fault {A}.

Definition bind {A B : Type} (c : outcome A) (k : A -> outcome B) : outcome B :=
  match c with
  | Ret a => k a
  | Fault => Fault
  end.

Notation "x <- c ;; k" := (bind c (fun x => k))
  (at level 61, c at next level, right associativity).

(** ** Pointers *)

(** A non-NULL address; a C pointer is [None] (NULL) or [Some a]. *)
Definition addr := positive.

Definition LdmDevice_ptr := option addr.

(** [device == not_like] on two device pointers. *)
Definition ptr_eqb (p q : LdmDevice_ptr) : bool :=
  match p, q with
  | None, None => true
  | Some a, Some b => Pos.eqb a b
  | _, _ => false
  end.

(** [!p] on a pointer. *)
Definition is_null (p : LdmDevice_ptr) : bool :=
  match p with
  | None => true
  | Some _ => false
  end.

(** [self->field]: reading through NULL faults. *)
Definition deref {S A : Type} (self : option S) (k : S -> outcome A) : outcome A :=
  match self with
  | None => Fault
  | Some s => k s
  end.

(** GLib's [g_return_val_if_fail (self != NULL, val)]: when the check
    fails the function returns [val] at once, otherwise it goes on. *)
Definition g_return_val_if_fail {S A : Type}
    (self : option S) (val : A) (k : S -> outcome A) : outcome A :=
  match self with
  | None => Ret val
  | Some s => k s
  end.

(** ** Devices *)

(** Modelled from the spec: the vendor identifiers [LDM_PCI_VENDOR_ID_*] are
    declared in a header that is not under src/.  The spec names the three
    vendors the classifier tells apart; they are given their PCI vendor
    numbers, read by the code as a [gint]. *)
Definition LDM_PCI_VENDOR_ID_INTEL : Z := 0x8086.
Definition LDM_PCI_VENDOR_ID_AMD : Z := 0x1002.
Definition LDM_PCI_VENDOR_ID_NVIDIA : Z := 0x10DE.

(** Modelled from the spec: the attribute enumeration of the device header
    is not under src/; the classifier asks for one attribute only. *)
Inductive LdmDeviceAttribute : Type :=
| LDM_DEVICE_ATTRIBUTE_BOOT_VGA.

(** Modelled from the spec: the structure behind [LdmDevice] is not under
    src/.  Section 3 of the spec gives a device a vendor identifier and a
    boolean boot-VGA attribute. *)
Record LdmDevice : Type := mkLdmDevice {
  dev_vendor_id : Z;
  dev_boot_vga : bool
}.

(** The array [ldm_manager_get_devices] hands back: its [pdata], in
    enumeration order; [len] is the length.  The manager owns the devices,
    no element is NULL. *)
Definition GPtrArray := list addr.

(** [devices->pdata[i]]; an index past the end is a fault. *)
Definition pdata (devices : GPtrArray) (i : nat) : outcome LdmDevice_ptr :=
  match nth_error devices i with
  | Some a => Ret (Some a)
  | None => Fault
  end.

(** ** The type flags *)

(** Modelled from the spec: the enumeration [LdmGPUType] is declared in
    gpu-config.h, which is not under src/.  The spec makes the type a bit
    flag set in which a zero mask always matches: [SIMPLE] is the empty
    set and every other flag is a bit of its own. *)
Definition LDM_GPU_TYPE_SIMPLE : Z := 0.
Definition LDM_GPU_TYPE_HYBRID : Z := Z.shiftl 1 0.
Definition LDM_GPU_TYPE_COMPOSITE : Z := Z.shiftl 1 1.
Definition LDM_GPU_TYPE_OPTIMUS : Z := Z.shiftl 1 2.
Definition LDM_GPU_TYPE_SLI : Z := Z.shiftl 1 3.
Definition LDM_GPU_TYPE_CROSSFIRE : Z := Z.shiftl 1 4.

(** Some bit of [flag] is set in [t]; for a single-bit flag, "the bit is
    set". *)
Definition flag_set (t flag : Z) : bool := negb (Z.land t flag =? 0).

(** ** The configuration *)

(** [struct _LdmGPUConfig].  The GObject parent is left out, and so is
    [manager]: the manager is only asked for its device array, which the
    analysis takes as an argument. *)
Record LdmGPUConfig : Type := mkLdmGPUConfig {
  primary : LdmDevice_ptr;      (* Primary GPU *)
  secondary : LdmDevice_ptr;    (* Secondary GPU *)
  n_gpu : Z;                    (* guint: how many GPUs *)
  gpu_type : Z                  (* guint: the type flags *)
}.

Definition set_primary (self : LdmGPUConfig) (p : LdmDevice_ptr) : LdmGPUConfig :=
  mkLdmGPUConfig p (secondary self) (n_gpu self) (gpu_type self).

Definition set_secondary (self : LdmGPUConfig) (p : LdmDevice_ptr) : LdmGPUConfig :=
  mkLdmGPUConfig (primary self) p (n_gpu self) (gpu_type self).

Definition set_n_gpu (self : LdmGPUConfig) (n : Z) : LdmGPUConfig :=
  mkLdmGPUConfig (primary self) (secondary self) n (gpu_type self).

Definition set_gpu_type (self : LdmGPUConfig) (t : Z) : LdmGPUConfig :=
  mkLdmGPUConfig (primary self) (secondary self) (n_gpu self) t.

(** The instance as [g_object_new] allocates it: GObject zero-fills the
    instance memory before the instance initialiser runs. *)
Definition zero_filled : LdmGPUConfig := mkLdmGPUConfig None None 0 0.

(** [ldm_gpu_config_init] *)
Definition ldm_gpu_config_init (self : LdmGPUConfig) : LdmGPUConfig :=
  let self := set_n_gpu self 0 in
  set_gpu_type self LDM_GPU_TYPE_SIMPLE.

(** ** Classification *)

Section Classifier.

(** The device structures the manager owns, by address. *)
Variable heap : addr -> LdmDevice.

(** Modelled from the spec: [ldm_device_has_attribute] is defined in the
    device module, which is not under src/.  It tells whether the device
    carries the attribute (section 6 of the spec).  On NULL it is given the
    guard every accessor of gpu-config.c has, returning FALSE: section 4.1
    wants a rule evaluated with a null device to fail safely. *)
Definition ldm_device_has_attribute
    (self : LdmDevice_ptr) (mask : LdmDeviceAttribute) : bool :=
  match self with
  | None => false
  | Some a =>
      match mask with
      | LDM_DEVICE_ATTRIBUTE_BOOT_VGA => dev_boot_vga (heap a)
      end
  end.

(** Modelled from the spec: [ldm_device_get_vendor_id] is defined in the
    device module, which is not under src/.  It reads the vendor identifier
    of the device (section 6 of the spec); on NULL it is given the same
    guard, returning 0. *)
Definition ldm_device_get_vendor_id (self : LdmDevice_ptr) : Z :=
  match self with
  | None => 0
  | Some a => dev_vendor_id (heap a)
  end.

(** The loop of [ldm_gpu_config_search_boot], entered with index [i] and
    [n] iterations left ([n = devices->len - i], so [i < devices->len] is
    [n] being a successor). *)
Fixpoint search_boot_loop (devices : GPtrArray) (vga_boot : bool)
    (not_like : LdmDevice_ptr) (n i : nat) : outcome LdmDevice_ptr :=
  match n with
  | O => Ret None
  | S n' =>
      device <- pdata devices i ;;
      if ptr_eqb device not_like then
        search_boot_loop devices vga_boot not_like n' (S i)
      else if Bool.eqb
                (ldm_device_has_attribute device LDM_DEVICE_ATTRIBUTE_BOOT_VGA)
                vga_boot then
        Ret device
      else
        search_boot_loop devices vga_boot not_like n' (S i)
  end.

(** [ldm_gpu_config_search_boot] *)
Definition ldm_gpu_config_search_boot (devices : GPtrArray) (vga_boot : bool)
    (not_like : LdmDevice_ptr) : outcome LdmDevice_ptr :=
  search_boot_loop devices vga_boot not_like (length devices) 0.

(** [ldm_gpu_config_do_optimus]: the returned boolean, and [self] as the
    function leaves it. *)
Definition ldm_gpu_config_do_optimus (self : LdmGPUConfig)
    (primary secondary : LdmDevice_ptr) : bool * LdmGPUConfig :=
  if negb (ldm_device_has_attribute primary LDM_DEVICE_ATTRIBUTE_BOOT_VGA) then
    (false, self)
  else if ldm_device_has_attribute secondary LDM_DEVICE_ATTRIBUTE_BOOT_VGA then
    (false, self)
  else if negb (ldm_device_get_vendor_id primary =? LDM_PCI_VENDOR_ID_INTEL) then
    (false, self)
  else if negb (ldm_device_get_vendor_id secondary =? LDM_PCI_VENDOR_ID_NVIDIA) then
    (false, self)
  else
    let self := set_gpu_type self (Z.lor LDM_GPU_TYPE_HYBRID LDM_GPU_TYPE_OPTIMUS) in
    let self := set_primary self primary in
    let self := set_secondary self secondary in
    (true, self).

(** [ldm_gpu_config_do_amd_hybrid] *)
Definition ldm_gpu_config_do_amd_hybrid (self : LdmGPUConfig)
    (primary secondary : LdmDevice_ptr) : bool * LdmGPUConfig :=
  if negb (ldm_device_has_attribute primary LDM_DEVICE_ATTRIBUTE_BOOT_VGA) then
    (false, self)
  else if ldm_device_has_attribute secondary LDM_DEVICE_ATTRIBUTE_BOOT_VGA then
    (false, self)
  else
    let primary_vendor_id := ldm_device_get_vendor_id primary in
    if negb (primary_vendor_id =? LDM_PCI_VENDOR_ID_INTEL) &&
       negb (primary_vendor_id =? LDM_PCI_VENDOR_ID_AMD) then
      (false, self)
    else if negb (ldm_device_get_vendor_id secondary =? LDM_PCI_VENDOR_ID_AMD) then
      (false, self)
    else
      let self := set_gpu_type self LDM_GPU_TYPE_HYBRID in
      let self := set_primary self primary in
      let self := set_secondary self secondary in
      (true, self).

(** [ldm_gpu_config_analyze].  [devices] is what
    [ldm_manager_get_devices (self->manager, PCI | GPU)] returned; the
    [g_message] of the empty case writes to the log only. *)
Definition ldm_gpu_config_analyze (devices : GPtrArray) (self : LdmGPUConfig)
    : outcome LdmGPUConfig :=
  let self := set_n_gpu self (Z.of_nat (length devices)) in
  if n_gpu self <? 1 then
    Ret self
  else
    (* Safety set *)
    first <- pdata devices 0 ;;
    let self := set_primary self first in
    (* Trivial GPU configuration *)
    if n_gpu self =? 1 then
      Ret (set_gpu_type self LDM_GPU_TYPE_SIMPLE)
    else
      (* Ensure we have boot_vga, compensate if required *)
      boot_vga <- ldm_gpu_config_search_boot devices true None ;;
      boot_vga <- (if is_null boot_vga then pdata devices 0 else Ret boot_vga) ;;
      (* Ensure primary is properly set now *)
      let self := set_primary self boot_vga in
      (* Find a non_boot_vga that isn't boot_vga *)
      non_boot_vga <- ldm_gpu_config_search_boot devices false boot_vga ;;
      (* Optimus? *)
      let (optimus, self) := ldm_gpu_config_do_optimus self boot_vga non_boot_vga in
      if optimus then Ret self
      else
        (* AMD hybrid? *)
        let (amd_hybrid, self) :=
          ldm_gpu_config_do_amd_hybrid self boot_vga non_boot_vga in
        if amd_hybrid then Ret self
        else
          (* Do we have composite graphics, i.e. SLI? *)
          let vendor_id := ldm_device_get_vendor_id boot_vga in
          if vendor_id =? ldm_device_get_vendor_id non_boot_vga then
            if vendor_id =? LDM_PCI_VENDOR_ID_AMD then
              Ret (set_gpu_type self
                     (Z.lor LDM_GPU_TYPE_COMPOSITE LDM_GPU_TYPE_CROSSFIRE))
            else if vendor_id =? LDM_PCI_VENDOR_ID_NVIDIA then
              Ret (set_gpu_type self
                     (Z.lor LDM_GPU_TYPE_COMPOSITE LDM_GPU_TYPE_SLI))
            else
              (* back to being simple device *)
              Ret (set_gpu_type self LDM_GPU_TYPE_SIMPLE)
          else
            Ret (set_gpu_type self LDM_GPU_TYPE_SIMPLE).

(** [ldm_gpu_config_constructed] *)
Definition ldm_gpu_config_constructed (devices : GPtrArray) (obj : LdmGPUConfig)
    : outcome LdmGPUConfig :=
  ldm_gpu_config_analyze devices obj.

(** [ldm_gpu_config_new]: [g_object_new] allocates the zero-filled
    instance, runs the instance initialiser and then [constructed].
    [devices] stands for the manager, seen through the device array it
    returns. *)
Definition ldm_gpu_config_new (devices : GPtrArray) : outcome LdmGPUConfig :=
  ldm_gpu_config_constructed devices (ldm_gpu_config_init zero_filled).

End Classifier.

(** What [ldm_gpu_config_analyze] can leave behind, one constructor per
    [return] of the function: no device, one device, Optimus, AMD hybrid,
    the two composite cases, and the fall-back. *)
Inductive analyzed (devices : GPtrArray) : LdmGPUConfig -> Prop :=
| analyzed_none :
    devices = [] ->
    analyzed devices (mkLdmGPUConfig None None 0 LDM_GPU_TYPE_SIMPLE)
| analyzed_single (d : addr) :
    devices = [d] ->
    analyzed devices (mkLdmGPUConfig (Some d) None 1 LDM_GPU_TYPE_SIMPLE)
| analyzed_optimus (boot other : addr) :
    (2 <= length devices)%nat -> In boot devices -> In other devices ->
    analyzed devices
      (mkLdmGPUConfig (Some boot) (Some other) (Z.of_nat (length devices))
         (Z.lor LDM_GPU_TYPE_HYBRID LDM_GPU_TYPE_OPTIMUS))
| analyzed_amd_hybrid (boot other : addr) :
    (2 <= length devices)%nat -> In boot devices -> In other devices ->
    analyzed devices
      (mkLdmGPUConfig (Some boot) (Some other) (Z.of_nat (length devices))
         LDM_GPU_TYPE_HYBRID)
| analyzed_crossfire (boot : addr) :
    (2 <= length devices)%nat -> In boot devices ->
    analyzed devices
      (mkLdmGPUConfig (Some boot) None (Z.of_nat (length devices))
         (Z.lor LDM_GPU_TYPE_COMPOSITE LDM_GPU_TYPE_CROSSFIRE))
| analyzed_sli (boot : addr) :
    (2 <= length devices)%nat -> In boot devices ->
    analyzed devices
      (mkLdmGPUConfig (Some boot) None (Z.of_nat (length devices))
         (Z.lor LDM_GPU_TYPE_COMPOSITE LDM_GPU_TYPE_SLI))
| analyzed_simple (boot : addr) :
    (2 <= length devices)%nat -> In boot devices ->
    analyzed devices
      (mkLdmGPUConfig (Some boot) None (Z.of_nat (length devices))
         LDM_GPU_TYPE_SIMPLE).

(** The invariants section 3 of the spec lists for a configuration, in
    the spec's words. *)
Definition config_invariants (cfg : LdmGPUConfig) : Prop :=
  (n_gpu cfg = 0 <-> primary cfg = None /\ gpu_type cfg = LDM_GPU_TYPE_SIMPLE) /\
  (flag_set (gpu_type cfg) LDM_GPU_TYPE_OPTIMUS = true ->
   flag_set (gpu_type cfg) LDM_GPU_TYPE_HYBRID = true) /\
  (flag_set (gpu_type cfg) LDM_GPU_TYPE_SLI = true \/
   flag_set (gpu_type cfg) LDM_GPU_TYPE_CROSSFIRE = true ->
   flag_set (gpu_type cfg) LDM_GPU_TYPE_COMPOSITE = true) /\
  (n_gpu cfg <= 1 ->
   gpu_type cfg = LDM_GPU_TYPE_SIMPLE /\ secondary cfg = None).

(** ** Query accessors

    [self] is a pointer to the instance and may be NULL. *)

(** [ldm_gpu_config_count] *)
Definition ldm_gpu_config_count (self : option LdmGPUConfig) : outcome Z :=
  g_return_val_if_fail self 0 (fun s => Ret (n_gpu s)).

(** [ldm_gpu_config_get_gpu_type] *)
Definition ldm_gpu_config_get_gpu_type (self : option LdmGPUConfig) : outcome Z :=
  g_return_val_if_fail self LDM_GPU_TYPE_SIMPLE (fun s => Ret (gpu_type s)).

(** [ldm_gpu_config_has_type] *)
Definition ldm_gpu_config_has_type (self : option LdmGPUConfig) (mask : Z)
    : outcome bool :=
  g_return_val_if_fail self false
    (fun s => if Z.land (gpu_type s) mask =? mask then Ret true else Ret false).

(** [ldm_gpu_config_get_primary_device] *)
Definition ldm_gpu_config_get_primary_device (self : option LdmGPUConfig)
    : outcome LdmDevice_ptr :=
  g_return_val_if_fail self None (fun s => Ret (primary s)).

(** [ldm_gpu_config_get_secondary_device] *)
Definition ldm_gpu_config_get_secondary_device (self : option LdmGPUConfig)
    : outcome LdmDevice_ptr :=
  g_return_val_if_fail self None (fun s => Ret (secondary s)).

(** [ldm_gpu_config_get_detection_device]: no check of [self] before the
    fields are read. *)
Definition ldm_gpu_config_get_detection_device (self : option LdmGPUConfig)
    : outcome LdmDevice_ptr :=
  hybrid <- ldm_gpu_config_has_type self LDM_GPU_TYPE_HYBRID ;;
  if hybrid then deref self (fun s => Ret (secondary s))
  else deref self (fun s => Ret (primary s)).

(** What the search hands back: NULL, or a device of the array that is
    not [not_like] and whose boot-VGA attribute is the one asked for. *)
Definition search_result (heap : addr -> LdmDevice) (devices : GPtrArray)
    (vga_boot : bool) (not_like r : LdmDevice_ptr) : Prop :=
  match r with
  | None => True
  | Some d =>
      In d devices /\
      ptr_eqb (Some d) not_like = false /\
      dev_boot_vga (heap d) = vga_boot
  end.

(** ** Sample machines *)

(** A machine with two devices: the one at address 1, and another one. *)
Definition two_devices (d1 d2 : LdmDevice) : addr -> LdmDevice :=
  fun a => if Pos.eqb a 1 then d1 else d2.

Definition intel_boot : LdmDevice := mkLdmDevice LDM_PCI_VENDOR_ID_INTEL true.
Definition nvidia_boot : LdmDevice := mkLdmDevice LDM_PCI_VENDOR_ID_NVIDIA true.
Definition nvidia_other : LdmDevice := mkLdmDevice LDM_PCI_VENDOR_ID_NVIDIA false.
Definition amd_boot : LdmDevice := mkLdmDevice LDM_PCI_VENDOR_ID_AMD true.
Definition amd_other : LdmDevice := mkLdmDevice LDM_PCI_VENDOR_ID_AMD false.

(** An Intel boot device at address 1 with an NVIDIA device at 2; the same
    with an AMD pair; and two devices that both carry the boot-VGA
    attribute. *)
Definition optimus_laptop : addr -> LdmDevice := two_devices intel_boot nvidia_other.
Definition amd_laptop : addr -> LdmDevice := two_devices amd_boot amd_other.
Definition two_boot_devices : addr -> LdmDevice := two_devices intel_boot nvidia_boot.

(** A manager module for the sample machines: every manager returns the
    devices at addresses 1 and 2, and gives a device itself as its only
    provider. *)
Definition sample_get_devices (manager : option addr) : option GPtrArray :=
  Some [1; 2]%positive.
Definition sample_get_providers (manager : option addr) (dev : LdmDevice_ptr)
    : option (list LdmDevice_ptr) :=
  Some [dev].

(** ** The search and the cascade, for the further properties *)

(** The test the loop of [ldm_gpu_config_search_boot] makes on one
    element: it is not [not_like], and its boot-VGA attribute is the one
    asked for. *)
Definition search_accepts (heap : addr -> LdmDevice) (vga_boot : bool)
    (not_like : LdmDevice_ptr) (d : addr) : bool :=
  negb (ptr_eqb (Some d) not_like) &&
  Bool.eqb (dev_boot_vga (heap d)) vga_boot.

(** The first device of the array that carries the boot-VGA attribute. *)
Definition first_boot_vga (heap : addr -> LdmDevice) (devices : GPtrArray)
    : LdmDevice_ptr :=
  find (fun d => dev_boot_vga (heap d)) devices.

(** The boot device: the first boot-VGA device, or else the first
    device. *)
Definition boot_device (heap : addr -> LdmDevice) (devices : GPtrArray)
    : LdmDevice_ptr :=
  match first_boot_vga heap devices with
  | Some b => Some b
  | None => hd_error devices
  end.

(** The other device: the first one that is not the boot device and does
    not carry the boot-VGA attribute. *)
Definition other_device (heap : addr -> LdmDevice) (devices : GPtrArray)
    : LdmDevice_ptr :=
  find (search_accepts heap false (boot_device heap devices)) devices.

(** The statements of [ldm_gpu_config_analyze] that follow the two
    searches (from "Optimus?" to the end), on the two devices found. *)
Definition analyze_cascade (heap : addr -> LdmDevice) (self : LdmGPUConfig)
    (boot_vga non_boot_vga : LdmDevice_ptr) : LdmGPUConfig :=
  let (optimus, self) :=
    ldm_gpu_config_do_optimus heap self boot_vga non_boot_vga in
  if optimus then self
  else
    let (amd_hybrid, self) :=
      ldm_gpu_config_do_amd_hybrid heap self boot_vga non_boot_vga in
    if amd_hybrid then self
    else
      let vendor_id := ldm_device_get_vendor_id heap boot_vga in
      if vendor_id =? ldm_device_get_vendor_id heap non_boot_vga then
        if vendor_id =? LDM_PCI_VENDOR_ID_AMD then
          set_gpu_type self (Z.lor LDM_GPU_TYPE_COMPOSITE LDM_GPU_TYPE_CROSSFIRE)
        else if vendor_id =? LDM_PCI_VENDOR_ID_NVIDIA then
          set_gpu_type self (Z.lor LDM_GPU_TYPE_COMPOSITE LDM_GPU_TYPE_SLI)
        else
          set_gpu_type self LDM_GPU_TYPE_SIMPLE
      else
        set_gpu_type self LDM_GPU_TYPE_SIMPLE.

(** ** The object with its manager: properties and providers *)

(** Property IDs *)
Definition PROP_MANAGER : Z := 1.

(** A [GValue] as the property functions use it: it holds a pointer or a
    flags value. *)
Inductive GValue : Type :=
| GValue_pointer (p : option addr)
| GValue_flags (f : Z).

(** GLib's [g_value_get_pointer]: the pointer held, and NULL for a value
    that does not hold a pointer. *)
Definition g_value_get_pointer (value : GValue) : option addr :=
  match value with
  | GValue_pointer p => p
  | GValue_flags _ => None
  end.

(** The fields the analysis writes and the analysis on them, under names
    that stay in reach inside [Object]. *)
Abbreviation config_fields := LdmGPUConfig (only parsing).
Abbreviation analyze_fields := ldm_gpu_config_analyze (only parsing).

Module Object.

(** [struct _LdmGPUConfig] with its [manager] pointer; [state] holds the
    fields the analysis writes. *)
Record LdmGPUConfig : Type := mkObject {
  manager : option addr;
  state : config_fields
}.

(** [ldm_gpu_config_set_property]: the default case only warns. *)
Definition ldm_gpu_config_set_property (self : LdmGPUConfig) (id : Z)
    (value : GValue) : LdmGPUConfig :=
  if id =? PROP_MANAGER then
    mkObject (g_value_get_pointer value) (state self)
  else
    self.


(** [ldm_gpu_config_analyze] on the object.  [get_devices] is
    [ldm_manager_get_devices] for the PCI GPU class, a function of the
    manager module: it is given the manager pointer and returns a pointer
    to an array, and [devices->len] reads through that pointer. *)
Definition ldm_gpu_config_analyze (heap : addr -> LdmDevice)
    (get_devices : option addr -> option GPtrArray) (self : LdmGPUConfig)
    : outcome LdmGPUConfig :=
  deref (get_devices (manager self))
    (fun devices =>
       st <- analyze_fields heap devices (state self) ;;
       Ret (mkObject (manager self) st)).

(** [ldm_gpu_config_new]: [g_assert] ends the program on a NULL manager;
    otherwise [g_object_new] allocates the zero-filled instance, runs
    [ldm_gpu_config_init], sets the construct property "manager" and runs
    [ldm_gpu_config_constructed]. *)
Definition ldm_gpu_config_new (heap : addr -> LdmDevice)
    (get_devices : option addr -> option GPtrArray) (manager : option addr)
    : outcome LdmGPUConfig :=
  if is_null manager then
    Fault
  else
    let self := mkObject None (ldm_gpu_config_init zero_filled) in
    let self :=
      ldm_gpu_config_set_property self PROP_MANAGER (GValue_pointer manager) in
    ldm_gpu_config_analyze heap get_devices self.

(** [ldm_gpu_config_get_manager] *)
Definition ldm_gpu_config_get_manager (self : option LdmGPUConfig)
    : outcome (option addr) :=
  g_return_val_if_fail self None (fun o => Ret (manager o)).

(** [ldm_gpu_config_get_providers].  [get_providers] is
    [ldm_manager_get_providers], a function of the manager module, given
    the manager pointer and the detection device; it returns a pointer to
    an array of providers. *)
Definition ldm_gpu_config_get_providers {Provider : Type}
    (get_providers : option addr -> LdmDevice_ptr -> option (list Provider))
    (self : option LdmGPUConfig) : outcome (option (list Provider)) :=
  g_return_val_if_fail self None
    (fun o =>
       dev <- ldm_gpu_config_get_detection_device (Some (state o)) ;;
       Ret (get_providers (manager o) dev)).

End Object.

(** * Properties *)

(** ** Array reads and the search loop *)

Lemma pdata_in_range (devices : GPtrArray) (i : nat) :
  (i < length devices)%nat ->
  exists d, pdata devices i = Ret (Some d) /\ In d devices.
Proof.
  intros Hi. unfold pdata.
  destruct (nth_error devices i) as [d|] eqn:E.
  - exists d. split; [reflexivity | eapply nth_error_In; eassumption].
  - apply nth_error_None in E. lia.
Qed.

Lemma search_boot_loop_returns heap devices vga_boot not_like :
  forall n i, (n + i = length devices)%nat ->
  exists r, search_boot_loop heap devices vga_boot not_like n i = Ret r /\
            search_result heap devices vga_boot not_like r.
Proof.
  induction n as [|n IH]; intros i Hlen.
  - exists None. split; [reflexivity | exact I].
  - destruct (pdata_in_range devices i) as [d [Hd Hin]]; [lia|].
    cbn [search_boot_loop]. rewrite Hd. cbn [bind].
    destruct (ptr_eqb (Some d) not_like) eqn:Heq.
    + apply IH. lia.
    + cbn [ldm_device_has_attribute].
      destruct (Bool.eqb (dev_boot_vga (heap d)) vga_boot) eqn:Hb.
      * exists (Some d). split; [reflexivity|].
        apply Bool.eqb_prop in Hb. cbn. auto.
      * apply IH. lia.
Qed.

Lemma search_boot_returns heap devices vga_boot not_like :
  exists r, ldm_gpu_config_search_boot heap devices vga_boot not_like = Ret r /\
            search_result heap devices vga_boot not_like r.
Proof.
  unfold ldm_gpu_config_search_boot. apply search_boot_loop_returns. lia.
Qed.

(** ** The two hybrid rules *)

(** A rule given a NULL second device does not match and leaves [self]
    alone. *)
Lemma do_optimus_null heap self p :
  ldm_gpu_config_do_optimus heap self p None = (false, self).
Proof.
  unfold ldm_gpu_config_do_optimus. cbn [ldm_device_has_attribute ldm_device_get_vendor_id].
  destruct (negb _); [reflexivity|].
  destruct (negb _); reflexivity.
Qed.

Lemma do_amd_hybrid_null heap self p :
  ldm_gpu_config_do_amd_hybrid heap self p None = (false, self).
Proof.
  unfold ldm_gpu_config_do_amd_hybrid.
  cbn [ldm_device_has_attribute ldm_device_get_vendor_id].
  destruct (negb _); [reflexivity|].
  destruct (_ && _); reflexivity.
Qed.

(** A rule either declines, leaving [self] as it was, or matches and
    writes its type and both devices. *)
Lemma do_optimus_cases heap self p q :
  ldm_gpu_config_do_optimus heap self p q = (false, self) \/
  (exists d, q = Some d) /\
  ldm_gpu_config_do_optimus heap self p q =
    (true, mkLdmGPUConfig p q (n_gpu self)
             (Z.lor LDM_GPU_TYPE_HYBRID LDM_GPU_TYPE_OPTIMUS)).
Proof.
  destruct q as [d|]; [|left; apply do_optimus_null].
  unfold ldm_gpu_config_do_optimus.
  repeat match goal with
         | |- context [if ?c then _ else _] => destruct c; [left; reflexivity|]
         end.
  right. split; [eexists; reflexivity | reflexivity].
Qed.

Lemma do_amd_hybrid_cases heap self p q :
  ldm_gpu_config_do_amd_hybrid heap self p q = (false, self) \/
  (exists d, q = Some d) /\
  ldm_gpu_config_do_amd_hybrid heap self p q =
    (true, mkLdmGPUConfig p q (n_gpu self) LDM_GPU_TYPE_HYBRID).
Proof.
  destruct q as [d|]; [|left; apply do_amd_hybrid_null].
  unfold ldm_gpu_config_do_amd_hybrid.
  repeat match goal with
         | |- context [if ?c then _ else _] => destruct c; [left; reflexivity|]
         end.
  right. split; [eexists; reflexivity | reflexivity].
Qed.

(** ** The analysis always returns, in one of its seven ways *)

Lemma analyze_returns heap devices :
  exists cfg, ldm_gpu_config_new heap devices = Ret cfg /\ analyzed devices cfg.
Proof.
  unfold ldm_gpu_config_new, ldm_gpu_config_constructed, ldm_gpu_config_analyze.
  destruct devices as [|d0 [|d1 rest]].
  - eexists. split; [reflexivity | now constructor].
  - eexists. split; [reflexivity | now econstructor].
  - set (devices := d0 :: d1 :: rest).
    assert (Hlen : (2 <= length devices)%nat) by (cbn; lia).
    cbn [n_gpu set_n_gpu ldm_gpu_config_init set_gpu_type set_primary
         primary secondary gpu_type zero_filled].
    replace (Z.of_nat (length devices) <? 1) with false
      by (symmetry; apply Z.ltb_ge; lia).
    replace (Z.of_nat (length devices) =? 1) with false
      by (symmetry; apply Z.eqb_neq; lia).
    change (pdata devices 0) with (Ret (A := LdmDevice_ptr) (Some d0)).
    cbn [bind].
    destruct (search_boot_returns heap devices true None) as [r1 [-> H1]].
    cbn [bind].
    assert (Hboot : exists b,
               (if is_null r1 then Ret (A := LdmDevice_ptr) (Some d0) else Ret r1)
               = Ret (Some b) /\ In b devices).
    { destruct r1 as [b|]; cbn.
      - exists b. split; [reflexivity | apply H1].
      - exists d0. split; [reflexivity | now left]. }
    destruct Hboot as [b [-> Hb]]. cbn [bind].
    destruct (search_boot_returns heap devices false (Some b)) as [r2 [-> H2]].
    cbn [bind].
    match goal with
    | |- context [ldm_gpu_config_do_optimus heap ?s ?p ?q] =>
        destruct (do_optimus_cases heap s p q) as [-> | [[o ->] ->]]
    end.
    2:{ eexists. split; [reflexivity|].
        apply analyzed_optimus; [assumption | assumption | apply H2]. }
    match goal with
    | |- context [ldm_gpu_config_do_amd_hybrid heap ?s ?p ?q] =>
        destruct (do_amd_hybrid_cases heap s p q) as [-> | [[o ->] ->]]
    end.
    2:{ eexists. split; [reflexivity|].
        apply analyzed_amd_hybrid; [assumption | assumption | apply H2]. }
    cbn [set_gpu_type primary secondary n_gpu].
    repeat match goal with
           | |- context [if ?c then _ else _] => destruct c
           end;
      (eexists; split; [reflexivity|]).
    + now apply analyzed_crossfire.
    + now apply analyzed_sli.
    + now apply analyzed_simple.
    + now apply analyzed_simple.
Qed.

(** ** Running the analysis on a pair of devices *)

(** Two devices whose boot-VGA attributes differ live at different
    addresses. *)
Lemma distinct_devices heap (a b : addr) :
  dev_boot_vga (heap a) = true -> dev_boot_vga (heap b) = false ->
  Pos.eqb b a = false.
Proof.
  intros Ha Hb. destruct (Pos.eqb_spec b a) as [->|]; congruence.
Qed.

Ltac unfold_analysis :=
  unfold ldm_gpu_config_new, ldm_gpu_config_constructed,
    ldm_gpu_config_analyze, ldm_gpu_config_search_boot,
    ldm_gpu_config_do_optimus, ldm_gpu_config_do_amd_hybrid;
  cbn.

(** Rewrites with what is known of the two devices until the analysis
    has run to its end. *)
Ltac run_pair Ha Hb Hva Hvb :=
  unfold_analysis;
  repeat (first [ rewrite Ha | rewrite Hb | rewrite Hva | rewrite Hvb
                | rewrite Pos.eqb_refl
                | rewrite (distinct_devices _ _ _ Ha Hb) ];
          cbn).

(** An Intel boot device and an NVIDIA device without the attribute are
    analysed the same way in either order of enumeration. *)
Lemma pair_optimus heap (a b : addr) :
  dev_boot_vga (heap a) = true -> dev_boot_vga (heap b) = false ->
  dev_vendor_id (heap a) = LDM_PCI_VENDOR_ID_INTEL ->
  dev_vendor_id (heap b) = LDM_PCI_VENDOR_ID_NVIDIA ->
  let cfg := mkLdmGPUConfig (Some a) (Some b) 2
               (Z.lor LDM_GPU_TYPE_HYBRID LDM_GPU_TYPE_OPTIMUS) in
  ldm_gpu_config_new heap [a; b] = Ret cfg /\
  ldm_gpu_config_new heap [b; a] = Ret cfg.
Proof.
  intros Ha Hb Hva Hvb cfg. subst cfg.
  split; run_pair Ha Hb Hva Hvb; reflexivity.
Qed.

(** ** Invariants of an analysed configuration *)

Lemma analyzed_count devices cfg :
  analyzed devices cfg -> n_gpu cfg = Z.of_nat (length devices).
Proof.
  intros A. destruct A; subst; reflexivity.
Qed.

Lemma analyzed_invariants devices cfg :
  analyzed devices cfg -> config_invariants cfg.
Proof.
  intros A. unfold config_invariants.
  destruct A; cbn [n_gpu primary secondary gpu_type];
    repeat split; intros;
    repeat match goal with
           | H : _ /\ _ |- _ => destruct H
           | H : _ \/ _ |- _ => destruct H
           end;
    try reflexivity; try discriminate; try lia.
Qed.

(** A hybrid type comes with a second device, any other type with a
    first one, as soon as there is a device at all. *)
Lemma analyzed_detection devices cfg :
  analyzed devices cfg -> devices <> [] ->
  exists d, In d devices /\
            (if flag_set (gpu_type cfg) LDM_GPU_TYPE_HYBRID
             then secondary cfg else primary cfg) = Some d.
Proof.
  intros A Hne.
  destruct A; subst; cbn; try contradiction; eauto.
Qed.

(** The low bit of the type decides [has_type] on [HYBRID]. *)
Lemma has_type_hybrid (s : LdmGPUConfig) :
  ldm_gpu_config_has_type (Some s) LDM_GPU_TYPE_HYBRID =
  Ret (flag_set (gpu_type s) LDM_GPU_TYPE_HYBRID).
Proof.
  unfold ldm_gpu_config_has_type, g_return_val_if_fail, flag_set.
  change LDM_GPU_TYPE_HYBRID with (Z.ones 1).
  rewrite Z.land_ones by lia.
  change (Z.ones 1) with 1.
  pose proof (Z.mod_pos_bound (gpu_type s) (2 ^ 1) ltac:(lia)) as Hm.
  change (2 ^ 1) with 2 in *.
  destruct (Z.eqb_spec (gpu_type s mod 2) 1) as [->|Hne]; [reflexivity|].
  destruct (Z.eqb_spec (gpu_type s mod 2) 0) as [_|Hne0]; [reflexivity | lia].
Qed.

Lemma detection_device_some (s : LdmGPUConfig) :
  ldm_gpu_config_get_detection_device (Some s) =
  Ret (if flag_set (gpu_type s) LDM_GPU_TYPE_HYBRID
       then secondary s else primary s).
Proof.
  unfold ldm_gpu_config_get_detection_device.
  rewrite has_type_hybrid. cbn [bind deref].
  destruct (flag_set _ _); reflexivity.
Qed.

(** ** Every device carrying the boot-VGA attribute *)

Lemma search_other_all_boot heap devices not_like :
  forallb (fun d => dev_boot_vga (heap d)) devices = true ->
  forall n i, (n + i = length devices)%nat ->
  search_boot_loop heap devices false not_like n i = Ret None.
Proof.
  intros Hall. induction n as [|n IH]; intros i Hlen; [reflexivity|].
  cbn [search_boot_loop]. unfold pdata.
  destruct (nth_error devices i) as [d|] eqn:E.
  - cbn [bind ldm_device_has_attribute].
    rewrite forallb_forall in Hall.
    rewrite (Hall d) by (eapply nth_error_In; eassumption).
    cbn [Bool.eqb].
    destruct (ptr_eqb (Some d) not_like); apply IH; lia.
  - apply nth_error_None in E. lia.
Qed.

Lemma all_boot_vga_simple heap devices :
  forallb (fun d => dev_boot_vga (heap d)) devices = true ->
  (2 <= length devices)%nat ->
  ldm_gpu_config_search_boot heap devices false (hd_error devices) = Ret None /\
  ldm_gpu_config_new heap devices =
    Ret (mkLdmGPUConfig (hd_error devices) None (Z.of_nat (length devices))
           LDM_GPU_TYPE_SIMPLE).
Proof.
  intros Hall Hlen.
  assert (Hother : forall p,
             ldm_gpu_config_search_boot heap devices false p = Ret None).
  { intros p. unfold ldm_gpu_config_search_boot.
    apply search_other_all_boot; [assumption | lia]. }
  split; [apply Hother|].
  destruct devices as [|d0 [|d1 rest]]; [cbn in Hlen; lia | cbn in Hlen; lia |].
  set (devices := d0 :: d1 :: rest) in *.
  assert (Hd0 : dev_boot_vga (heap d0) = true).
  { rewrite forallb_forall in Hall. apply Hall. now left. }
  unfold ldm_gpu_config_new, ldm_gpu_config_constructed, ldm_gpu_config_analyze.
  cbn [n_gpu set_n_gpu ldm_gpu_config_init set_gpu_type set_primary
       primary secondary gpu_type zero_filled].
  replace (Z.of_nat (length devices) <? 1) with false
    by (symmetry; apply Z.ltb_ge; lia).
  replace (Z.of_nat (length devices) =? 1) with false
    by (symmetry; apply Z.eqb_neq; lia).
  change (pdata devices 0) with (Ret (A := LdmDevice_ptr) (Some d0)).
  cbn [bind].
  replace (ldm_gpu_config_search_boot heap devices true None)
    with (Ret (A := LdmDevice_ptr) (Some d0))
    by (unfold ldm_gpu_config_search_boot; cbn; rewrite Hd0; reflexivity).
  cbn [bind is_null]. rewrite Hother. cbn [bind].
  rewrite do_optimus_null, do_amd_hybrid_null.
  cbn [ldm_device_get_vendor_id set_gpu_type primary secondary n_gpu hd_error].
  destruct (dev_vendor_id (heap d0) =? 0) eqn:E; [|reflexivity].
  apply Z.eqb_eq in E. rewrite E. reflexivity.
Qed.

(** * The claims *)

(** C1, as stated, fails: on an AMD boot device followed by an AMD device
    without the boot-VGA attribute the analysis returns the type HYBRID,
    which is not COMPOSITE|CROSSFIRE. *)
Lemma amd_pair_not_crossfire :
  exists cfg,
    ldm_gpu_config_new amd_laptop [1; 2]%positive = Ret cfg /\
    gpu_type cfg = LDM_GPU_TYPE_HYBRID /\
    gpu_type cfg <> Z.lor LDM_GPU_TYPE_COMPOSITE LDM_GPU_TYPE_CROSSFIRE.
Proof.
  eexists. split; [reflexivity|]. split; [reflexivity|].
  cbn. discriminate.
Qed.

(** C1, amended: for two AMD devices of which exactly the first carries
    the boot-VGA attribute, the AMD hybrid rule matches before the
    composite rule is reached: the type is HYBRID, the primary device is
    the boot device and the secondary device is the other one. *)
Theorem amd_pair_is_hybrid heap (a b : addr) :
  dev_boot_vga (heap a) = true -> dev_boot_vga (heap b) = false ->
  dev_vendor_id (heap a) = LDM_PCI_VENDOR_ID_AMD ->
  dev_vendor_id (heap b) = LDM_PCI_VENDOR_ID_AMD ->
  ldm_gpu_config_new heap [a; b] =
    Ret (mkLdmGPUConfig (Some a) (Some b) 2 LDM_GPU_TYPE_HYBRID).
Proof.
  intros Ha Hb Hva Hvb.
  run_pair Ha Hb Hva Hvb; reflexivity.
Qed.

Lemma amd_pair_is_hybrid_witness :
  (dev_boot_vga (amd_laptop 1%positive) = true /\
   dev_boot_vga (amd_laptop 2%positive) = false /\
   dev_vendor_id (amd_laptop 1%positive) = LDM_PCI_VENDOR_ID_AMD /\
   dev_vendor_id (amd_laptop 2%positive) = LDM_PCI_VENDOR_ID_AMD) /\
  ldm_gpu_config_new amd_laptop [1; 2]%positive =
    Ret (mkLdmGPUConfig (Some 1%positive) (Some 2%positive) 2 LDM_GPU_TYPE_HYBRID).
Proof.
  split; [repeat split|].
  apply (amd_pair_is_hybrid amd_laptop 1%positive 2%positive);
    reflexivity.
Defined.

(** C2: on a NULL configuration the count, the type, [has_type] and the
    primary and secondary accessors return their defaults, but
    [ldm_gpu_config_get_detection_device] reads [self->primary] through the
    NULL pointer and faults. *)
Theorem detection_device_null_faults (mask : Z) :
  ldm_gpu_config_count None = Ret 0 /\
  ldm_gpu_config_get_gpu_type None = Ret LDM_GPU_TYPE_SIMPLE /\
  ldm_gpu_config_has_type None mask = Ret false /\
  ldm_gpu_config_get_primary_device None = Ret None /\
  ldm_gpu_config_get_secondary_device None = Ret None /\
  ldm_gpu_config_get_detection_device None = Fault.
Proof.
  repeat split.
Qed.

(** C3: on a configuration, the detection device is the secondary device
    when the HYBRID bit of the type is set and the primary device when it
    is not, whatever the other bits are. *)
Theorem detection_device_by_hybrid_bit (s : LdmGPUConfig) :
  ldm_gpu_config_get_detection_device (Some s) =
  Ret (if flag_set (gpu_type s) LDM_GPU_TYPE_HYBRID
       then secondary s else primary s).
Proof.
  apply detection_device_some.
Qed.

(** C4: for every device array the analysis returns a configuration,
    without a fault, and the configuration has the invariants of the data
    model and counts the devices; a rule given a NULL second device
    declines and leaves the configuration as it was; and when every
    device carries the boot-VGA attribute, the search for the other
    device returns NULL and the result is the SIMPLE configuration on the
    first device. *)
Theorem classification_total heap (devices : GPtrArray)
    (self : LdmGPUConfig) (p : LdmDevice_ptr) :
  (exists cfg,
      ldm_gpu_config_new heap devices = Ret cfg /\
      n_gpu cfg = Z.of_nat (length devices) /\
      config_invariants cfg) /\
  ldm_gpu_config_do_optimus heap self p None = (false, self) /\
  ldm_gpu_config_do_amd_hybrid heap self p None = (false, self) /\
  (forallb (fun d => dev_boot_vga (heap d)) devices = true ->
   (2 <= length devices)%nat ->
   ldm_gpu_config_search_boot heap devices false (hd_error devices) = Ret None /\
   ldm_gpu_config_new heap devices =
     Ret (mkLdmGPUConfig (hd_error devices) None (Z.of_nat (length devices))
            LDM_GPU_TYPE_SIMPLE)).
Proof.
  split; [|split; [|split]].
  - destruct (analyze_returns heap devices) as [cfg [E A]].
    exists cfg. split; [exact E|]. split.
    + eapply analyzed_count; eassumption.
    + eapply analyzed_invariants; eassumption.
  - apply do_optimus_null.
  - apply do_amd_hybrid_null.
  - apply all_boot_vga_simple.
Qed.

Lemma classification_total_witness :
  forallb (fun d => dev_boot_vga (two_boot_devices d))
    [1; 2]%positive = true /\
  (2 <= length [1; 2]%positive)%nat /\
  ldm_gpu_config_new two_boot_devices [1; 2]%positive =
    Ret (mkLdmGPUConfig (Some 1%positive) None 2 LDM_GPU_TYPE_SIMPLE).
Proof.
  split; [reflexivity|]. split; [cbn; lia|].
  apply (classification_total two_boot_devices
           [1; 2]%positive zero_filled None);
    [reflexivity | cbn; lia].
Defined.

(** C5: an Intel device with the boot-VGA attribute followed by an NVIDIA
    device without it is HYBRID|OPTIMUS, with the Intel device primary and
    the NVIDIA device secondary. *)
Theorem optimus_pair heap (intel nvidia : addr) :
  dev_boot_vga (heap intel) = true -> dev_boot_vga (heap nvidia) = false ->
  dev_vendor_id (heap intel) = LDM_PCI_VENDOR_ID_INTEL ->
  dev_vendor_id (heap nvidia) = LDM_PCI_VENDOR_ID_NVIDIA ->
  ldm_gpu_config_new heap [intel; nvidia] =
    Ret (mkLdmGPUConfig (Some intel) (Some nvidia) 2
           (Z.lor LDM_GPU_TYPE_HYBRID LDM_GPU_TYPE_OPTIMUS)).
Proof.
  intros Ha Hb Hva Hvb.
  apply (pair_optimus heap intel nvidia Ha Hb Hva Hvb).
Qed.

Lemma optimus_pair_witness :
  (dev_boot_vga (optimus_laptop 1%positive) = true /\
   dev_boot_vga (optimus_laptop 2%positive) = false /\
   dev_vendor_id (optimus_laptop 1%positive) = LDM_PCI_VENDOR_ID_INTEL /\
   dev_vendor_id (optimus_laptop 2%positive) = LDM_PCI_VENDOR_ID_NVIDIA) /\
  ldm_gpu_config_new optimus_laptop [1; 2]%positive =
    Ret (mkLdmGPUConfig (Some 1%positive) (Some 2%positive) 2
           (Z.lor LDM_GPU_TYPE_HYBRID LDM_GPU_TYPE_OPTIMUS)).
Proof.
  split; [repeat split|].
  apply (optimus_pair optimus_laptop 1%positive 2%positive); reflexivity.
Defined.

(** C6: enumerating the NVIDIA device before the Intel boot device gives
    the same configuration (count, type, primary and secondary device) as
    enumerating it after: the boot device is found by its attribute. *)
Theorem optimus_pair_any_order heap (intel nvidia : addr) :
  dev_boot_vga (heap intel) = true -> dev_boot_vga (heap nvidia) = false ->
  dev_vendor_id (heap intel) = LDM_PCI_VENDOR_ID_INTEL ->
  dev_vendor_id (heap nvidia) = LDM_PCI_VENDOR_ID_NVIDIA ->
  ldm_gpu_config_new heap [nvidia; intel] =
    ldm_gpu_config_new heap [intel; nvidia] /\
  ldm_gpu_config_new heap [nvidia; intel] =
    Ret (mkLdmGPUConfig (Some intel) (Some nvidia) 2
           (Z.lor LDM_GPU_TYPE_HYBRID LDM_GPU_TYPE_OPTIMUS)).
Proof.
  intros Ha Hb Hva Hvb.
  destruct (pair_optimus heap intel nvidia Ha Hb Hva Hvb) as [E1 E2].
  split; [rewrite E1, E2; reflexivity | exact E2].
Qed.

Lemma optimus_pair_any_order_witness :
  (dev_boot_vga (optimus_laptop 1%positive) = true /\
   dev_boot_vga (optimus_laptop 2%positive) = false /\
   dev_vendor_id (optimus_laptop 1%positive) = LDM_PCI_VENDOR_ID_INTEL /\
   dev_vendor_id (optimus_laptop 2%positive) = LDM_PCI_VENDOR_ID_NVIDIA) /\
  ldm_gpu_config_new optimus_laptop [2; 1]%positive =
    ldm_gpu_config_new optimus_laptop [1; 2]%positive /\
  ldm_gpu_config_new optimus_laptop [2; 1]%positive =
    Ret (mkLdmGPUConfig (Some 1%positive) (Some 2%positive) 2
           (Z.lor LDM_GPU_TYPE_HYBRID LDM_GPU_TYPE_OPTIMUS)).
Proof.
  split; [repeat split|].
  apply (optimus_pair_any_order optimus_laptop 1%positive 2%positive);
    reflexivity.
Defined.

(** C7: in the type of a configuration the analysis returns, the OPTIMUS
    bit comes with the HYBRID bit, and the SLI and CROSSFIRE bits come with
    the COMPOSITE bit. *)
Theorem type_flags_implied heap (devices : GPtrArray) (cfg : LdmGPUConfig) :
  ldm_gpu_config_new heap devices = Ret cfg ->
  (flag_set (gpu_type cfg) LDM_GPU_TYPE_OPTIMUS = true ->
   flag_set (gpu_type cfg) LDM_GPU_TYPE_HYBRID = true) /\
  (flag_set (gpu_type cfg) LDM_GPU_TYPE_SLI = true \/
   flag_set (gpu_type cfg) LDM_GPU_TYPE_CROSSFIRE = true ->
   flag_set (gpu_type cfg) LDM_GPU_TYPE_COMPOSITE = true).
Proof.
  intros E.
  destruct (analyze_returns heap devices) as [cfg' [E' A]].
  rewrite E in E'. injection E' as <-.
  destruct (analyzed_invariants _ _ A) as [_ [Ho [Hc _]]].
  split; assumption.
Qed.

Lemma type_flags_implied_witness :
  ldm_gpu_config_new optimus_laptop [1; 2]%positive =
    Ret (mkLdmGPUConfig (Some 1%positive) (Some 2%positive) 2
           (Z.lor LDM_GPU_TYPE_HYBRID LDM_GPU_TYPE_OPTIMUS)) /\
  (flag_set (Z.lor LDM_GPU_TYPE_HYBRID LDM_GPU_TYPE_OPTIMUS) LDM_GPU_TYPE_OPTIMUS = true ->
   flag_set (Z.lor LDM_GPU_TYPE_HYBRID LDM_GPU_TYPE_OPTIMUS) LDM_GPU_TYPE_HYBRID = true) /\
  (flag_set (Z.lor LDM_GPU_TYPE_HYBRID LDM_GPU_TYPE_OPTIMUS) LDM_GPU_TYPE_SLI = true \/
   flag_set (Z.lor LDM_GPU_TYPE_HYBRID LDM_GPU_TYPE_OPTIMUS) LDM_GPU_TYPE_CROSSFIRE = true ->
   flag_set (Z.lor LDM_GPU_TYPE_HYBRID LDM_GPU_TYPE_OPTIMUS) LDM_GPU_TYPE_COMPOSITE = true).
Proof.
  split; [reflexivity|].
  apply (type_flags_implied optimus_laptop [1; 2]%positive
           (mkLdmGPUConfig (Some 1%positive) (Some 2%positive) 2
              (Z.lor LDM_GPU_TYPE_HYBRID LDM_GPU_TYPE_OPTIMUS))).
  reflexivity.
Defined.

(** C8: a configuration the analysis returns with at most one device
    counted has the type SIMPLE and no secondary device. *)
Theorem at_most_one_device_simple heap (devices : GPtrArray) (cfg : LdmGPUConfig) :
  ldm_gpu_config_new heap devices = Ret cfg ->
  n_gpu cfg <= 1 ->
  gpu_type cfg = LDM_GPU_TYPE_SIMPLE /\ secondary cfg = None.
Proof.
  intros E Hn.
  destruct (analyze_returns heap devices) as [cfg' [E' A]].
  rewrite E in E'. injection E' as <-.
  destruct (analyzed_invariants _ _ A) as [_ [_ [_ H1]]].
  apply H1. exact Hn.
Qed.

Lemma at_most_one_device_simple_witness :
  ldm_gpu_config_new optimus_laptop [2]%positive =
    Ret (mkLdmGPUConfig (Some 2%positive) None 1 LDM_GPU_TYPE_SIMPLE) /\
  n_gpu (mkLdmGPUConfig (Some 2%positive) None 1 LDM_GPU_TYPE_SIMPLE) <= 1 /\
  gpu_type (mkLdmGPUConfig (Some 2%positive) None 1 LDM_GPU_TYPE_SIMPLE)
    = LDM_GPU_TYPE_SIMPLE /\
  secondary (mkLdmGPUConfig (Some 2%positive) None 1 LDM_GPU_TYPE_SIMPLE) = None.
Proof.
  split; [reflexivity|]. split; [cbn; lia|].
  apply (at_most_one_device_simple optimus_laptop
           [2]%positive
           (mkLdmGPUConfig (Some 2%positive) None 1 LDM_GPU_TYPE_SIMPLE)).
  - reflexivity.
  - cbn. lia.
Defined.

(** C9: with no device the analysis returns, without a fault, the
    configuration that counts 0 devices, has the type SIMPLE and neither a
    primary nor a secondary device. *)
Theorem no_device_degenerate heap :
  ldm_gpu_config_new heap [] =
    Ret (mkLdmGPUConfig None None 0 LDM_GPU_TYPE_SIMPLE).
Proof.
  reflexivity.
Qed.

(** C10: for a non-empty device array, the detection device of the
    configuration the analysis returns is not NULL; it is a device of the
    array. *)
Theorem detection_device_not_null heap (devices : GPtrArray) (cfg : LdmGPUConfig) :
  devices <> [] ->
  ldm_gpu_config_new heap devices = Ret cfg ->
  exists d, In d devices /\
            ldm_gpu_config_get_detection_device (Some cfg) = Ret (Some d).
Proof.
  intros Hne E.
  destruct (analyze_returns heap devices) as [cfg' [E' A]].
  rewrite E in E'. injection E' as <-.
  destruct (analyzed_detection _ _ A Hne) as [d [Hin Hd]].
  exists d. split; [exact Hin|].
  rewrite detection_device_some, Hd. reflexivity.
Qed.

Lemma detection_device_not_null_witness :
  [1; 2]%positive <> [] /\
  ldm_gpu_config_new optimus_laptop [1; 2]%positive =
    Ret (mkLdmGPUConfig (Some 1%positive) (Some 2%positive) 2
           (Z.lor LDM_GPU_TYPE_HYBRID LDM_GPU_TYPE_OPTIMUS)) /\
  exists d, In d [1; 2]%positive /\
            ldm_gpu_config_get_detection_device
              (Some (mkLdmGPUConfig (Some 1%positive) (Some 2%positive) 2
                       (Z.lor LDM_GPU_TYPE_HYBRID LDM_GPU_TYPE_OPTIMUS)))
            = Ret (Some d).
Proof.
  split; [discriminate|]. split; [reflexivity|].
  apply (detection_device_not_null optimus_laptop
           [1; 2]%positive).
  - discriminate.
  - reflexivity.
Defined.

(** * Further properties of the search and of the analysis *)

(** ** The search loop is a search for the first accepted element *)

Lemma ptr_eqb_eq (p q : LdmDevice_ptr) : ptr_eqb p q = true <-> p = q.
Proof.
  destruct p as [a|], q as [b|]; cbn; try (split; congruence).
  rewrite Pos.eqb_eq. split; congruence.
Qed.

Lemma ptr_eqb_neq (p q : LdmDevice_ptr) : ptr_eqb p q = false <-> p <> q.
Proof.
  rewrite <- ptr_eqb_eq. destruct (ptr_eqb p q); split; congruence.
Qed.

Lemma search_accepts_true heap vga_boot not_like d :
  search_accepts heap vga_boot not_like d = true <->
  Some d <> not_like /\ dev_boot_vga (heap d) = vga_boot.
Proof.
  unfold search_accepts.
  rewrite andb_true_iff, negb_true_iff, ptr_eqb_neq, Bool.eqb_true_iff.
  reflexivity.
Qed.

Lemma search_accepts_false heap vga_boot not_like d :
  search_accepts heap vga_boot not_like d = false <->
  Some d = not_like \/ dev_boot_vga (heap d) = negb vga_boot.
Proof.
  unfold search_accepts.
  rewrite andb_false_iff, negb_false_iff, ptr_eqb_eq, Bool.eqb_false_iff.
  destruct (dev_boot_vga (heap d)), vga_boot; cbn; intuition congruence.
Qed.

Lemma skipn_nth_error {A : Type} (l : list A) :
  forall i d, nth_error l i = Some d -> skipn i l = d :: skipn (S i) l.
Proof.
  induction l as [|x l IH]; intros [|i] d H; cbn in *; try discriminate.
  - congruence.
  - apply IH. exact H.
Qed.

Lemma search_boot_loop_find heap devices vga_boot not_like :
  forall n i, (n + i = length devices)%nat ->
  search_boot_loop heap devices vga_boot not_like n i =
  Ret (find (search_accepts heap vga_boot not_like) (skipn i devices)).
Proof.
  induction n as [|n IH]; intros i Hlen.
  - cbn in Hlen. subst i. rewrite skipn_all. reflexivity.
  - cbn [search_boot_loop]. unfold pdata.
    destruct (nth_error devices i) as [d|] eqn:E.
    + rewrite (skipn_nth_error _ _ _ E). cbn [bind find].
      unfold search_accepts at 1. cbn [ldm_device_has_attribute].
      destruct (ptr_eqb (Some d) not_like); cbn [negb andb].
      * apply IH. lia.
      * destruct (Bool.eqb (dev_boot_vga (heap d)) vga_boot);
          [reflexivity | apply IH; lia].
    + apply nth_error_None in E. lia.
Qed.

Lemma find_first {A : Type} (f : A -> bool) (l : list A) (d : A) :
  find f l = Some d ->
  exists l1 l2, l = l1 ++ d :: l2 /\ f d = true /\
                forall x, In x l1 -> f x = false.
Proof.
  induction l as [|x l IH]; cbn; [discriminate|].
  destruct (f x) eqn:Fx; intros H.
  - injection H as <-. exists [], l. cbn. intuition.
  - destruct (IH H) as [l1 [l2 [-> [Fd Hl1]]]].
    exists (x :: l1), l2. cbn. repeat split; [assumption|].
    intros y [<-|Hy]; auto.
Qed.

Lemma find_app_found {A : Type} (f : A -> bool) (l extra : list A) (d : A) :
  find f l = Some d -> find f (l ++ extra) = Some d.
Proof.
  induction l as [|x l IH]; cbn; [discriminate|].
  destruct (f x); auto.
Qed.

Lemma search_boot_find heap devices vga_boot not_like :
  ldm_gpu_config_search_boot heap devices vga_boot not_like =
  Ret (find (search_accepts heap vga_boot not_like) devices).
Proof.
  unfold ldm_gpu_config_search_boot.
  rewrite search_boot_loop_find by lia. reflexivity.
Qed.

(** ** The analysis is the cascade on the boot device and the other device *)

Lemma search_accepts_boot heap d :
  search_accepts heap true None d = dev_boot_vga (heap d).
Proof.
  unfold search_accepts. cbn. destruct (dev_boot_vga (heap d)); reflexivity.
Qed.

Lemma find_ext_eq {A : Type} (f g : A -> bool) (l : list A) :
  (forall x, f x = g x) -> find f l = find g l.
Proof.
  intros E. induction l as [|x l IH]; cbn; [reflexivity|].
  rewrite E, IH. reflexivity.
Qed.

Lemma analyze_many heap devices self :
  (2 <= length devices)%nat ->
  ldm_gpu_config_analyze heap devices self =
  Ret (analyze_cascade heap
         (set_primary
            (set_primary (set_n_gpu self (Z.of_nat (length devices)))
               (hd_error devices))
            (boot_device heap devices))
         (boot_device heap devices) (other_device heap devices)).
Proof.
  intros Hlen. unfold ldm_gpu_config_analyze.
  cbn [n_gpu set_n_gpu set_primary].
  replace (Z.of_nat (length devices) <? 1) with false
    by (symmetry; apply Z.ltb_ge; lia).
  replace (Z.of_nat (length devices) =? 1) with false
    by (symmetry; apply Z.eqb_neq; lia).
  assert (H0 : pdata devices 0 = Ret (A := LdmDevice_ptr) (hd_error devices)).
  { destruct devices; [cbn in Hlen; lia | reflexivity]. }
  rewrite H0. cbn [bind].
  rewrite search_boot_find. cbn [bind].
  rewrite (find_ext_eq _ _ devices (search_accepts_boot heap)).
  fold (first_boot_vga heap devices).
  assert (Hb : (if is_null (first_boot_vga heap devices)
                then Ret (A := LdmDevice_ptr) (hd_error devices)
                else Ret (first_boot_vga heap devices))
               = Ret (boot_device heap devices)).
  { unfold boot_device. destruct (first_boot_vga heap devices); reflexivity. }
  rewrite Hb. cbn [bind].
  rewrite search_boot_find. cbn [bind].
  fold (other_device heap devices).
  unfold analyze_cascade.
  destruct (ldm_gpu_config_do_optimus _ _ _ _) as [[|] s1]; [reflexivity|].
  destruct (ldm_gpu_config_do_amd_hybrid _ _ _ _) as [[|] s2]; [reflexivity|].
  repeat match goal with
         | |- context [if ?c then _ else _] => destruct c
         end; reflexivity.
Qed.

Lemma other_device_single heap d : other_device heap [d] = None.
Proof.
  unfold other_device, boot_device, first_boot_vga. cbn.
  destruct (dev_boot_vga (heap d)); cbn;
    unfold search_accepts; cbn; rewrite Pos.eqb_refl; reflexivity.
Qed.

Lemma cascade_no_other heap self p :
  analyze_cascade heap self p None = set_gpu_type self LDM_GPU_TYPE_SIMPLE.
Proof.
  unfold analyze_cascade.
  rewrite do_optimus_null, do_amd_hybrid_null.
  cbn [ldm_device_get_vendor_id].
  destruct (Z.eqb_spec (ldm_device_get_vendor_id heap p) 0) as [->|]; reflexivity.
Qed.

(** Arrays of every length: the early returns for no device and for one
    device give what the cascade would give. *)
Lemma new_is_cascade heap devices :
  ldm_gpu_config_new heap devices =
  Ret (analyze_cascade heap
         (mkLdmGPUConfig (boot_device heap devices) None
            (Z.of_nat (length devices)) LDM_GPU_TYPE_SIMPLE)
         (boot_device heap devices) (other_device heap devices)).
Proof.
  destruct devices as [|d0 [|d1 rest]].
  - reflexivity.
  - rewrite other_device_single, cascade_no_other.
    unfold boot_device, first_boot_vga. cbn.
    destruct (dev_boot_vga (heap d0)); reflexivity.
  - unfold ldm_gpu_config_new, ldm_gpu_config_constructed.
    rewrite analyze_many by (cbn; lia). reflexivity.
Qed.

(** ** The boot device and the other device *)

Lemma first_boot_vga_none heap devices :
  first_boot_vga heap devices = None <->
  forall d, In d devices -> dev_boot_vga (heap d) = false.
Proof.
  unfold first_boot_vga. split.
  - intros H d Hd. apply (find_none _ _ H d Hd).
  - intros H. induction devices as [|x l IH]; [reflexivity|].
    cbn. rewrite (H x) by now left. apply IH.
    intros d Hd. apply H. now right.
Qed.

Lemma boot_device_in heap devices b :
  boot_device heap devices = Some b -> In b devices.
Proof.
  unfold boot_device, first_boot_vga.
  destruct (find _ devices) as [b'|] eqn:E.
  - intros [= <-]. apply (find_some _ _ E).
  - destruct devices; cbn; [discriminate|]. intros [= <-]. now left.
Qed.

Lemma boot_device_attr heap devices b :
  boot_device heap devices = Some b ->
  (dev_boot_vga (heap b) = true -> first_boot_vga heap devices = Some b) /\
  (dev_boot_vga (heap b) = false -> first_boot_vga heap devices = None).
Proof.
  unfold boot_device.
  destruct (first_boot_vga heap devices) as [b'|] eqn:E.
  - intros [= <-]. split; [reflexivity|].
    unfold first_boot_vga in E. apply find_some in E. destruct E as [_ E].
    congruence.
  - intros Hhd. split; [|reflexivity].
    intros Hb. rewrite first_boot_vga_none in E.
    rewrite E in Hb; [discriminate|].
    destruct devices; cbn in Hhd; [discriminate|].
    injection Hhd as <-. now left.
Qed.

Lemma boot_device_none heap devices :
  boot_device heap devices = None -> devices = [].
Proof.
  unfold boot_device. destruct (first_boot_vga heap devices); [discriminate|].
  destruct devices; [reflexivity | discriminate].
Qed.

Lemma other_device_facts heap devices o :
  other_device heap devices = Some o ->
  In o devices /\ dev_boot_vga (heap o) = false /\
  boot_device heap devices <> Some o.
Proof.
  unfold other_device. intros E. apply find_some in E.
  destruct E as [Hin E]. apply search_accepts_true in E.
  destruct E as [Hne Hb]. repeat split; auto.
Qed.

(** Splits the cascade on the boot device [b] and the other device [o],
    whose boot-VGA attribute is known to be unset ([Ho]), by the
    attribute of [b] and by the vendor comparisons the rules make. *)
Ltac cascade_cases heap b o Ho :=
  unfold analyze_cascade, ldm_gpu_config_do_optimus,
    ldm_gpu_config_do_amd_hybrid;
  cbn [ldm_device_has_attribute ldm_device_get_vendor_id];
  rewrite ?Ho;
  destruct (dev_boot_vga (heap b)) eqn:?;
  destruct (Z.eqb_spec (dev_vendor_id (heap b)) LDM_PCI_VENDOR_ID_INTEL);
  destruct (Z.eqb_spec (dev_vendor_id (heap o)) LDM_PCI_VENDOR_ID_NVIDIA);
  destruct (Z.eqb_spec (dev_vendor_id (heap b)) LDM_PCI_VENDOR_ID_AMD);
  destruct (Z.eqb_spec (dev_vendor_id (heap o)) LDM_PCI_VENDOR_ID_AMD);
  destruct (Z.eqb_spec (dev_vendor_id (heap b)) LDM_PCI_VENDOR_ID_NVIDIA);
  destruct (Z.eqb_spec (dev_vendor_id (heap b)) (dev_vendor_id (heap o)));
  cbn;
  try (exfalso;
       unfold LDM_PCI_VENDOR_ID_INTEL, LDM_PCI_VENDOR_ID_AMD,
         LDM_PCI_VENDOR_ID_NVIDIA in *; lia).

Ltac vendor_clash :=
  unfold LDM_PCI_VENDOR_ID_INTEL, LDM_PCI_VENDOR_ID_AMD,
    LDM_PCI_VENDOR_ID_NVIDIA in *;
  first [ congruence | lia ].

(** ** The four composite types, exactly

    Each theorem gives the condition on the boot device and on the other
    device under which the analysis returns the type, for device arrays
    of any length, and the configuration it then returns. *)

(** X6: the OPTIMUS bit is set exactly when the boot device carries the
    boot-VGA attribute and is an Intel device and the other device is an
    NVIDIA device; the configuration is then HYBRID|OPTIMUS on these
    two. *)
Theorem optimus_exactly_when heap devices :
  exists cfg,
    ldm_gpu_config_new heap devices = Ret cfg /\
    (flag_set (gpu_type cfg) LDM_GPU_TYPE_OPTIMUS = true <->
     exists b o,
       boot_device heap devices = Some b /\
       other_device heap devices = Some o /\
       dev_boot_vga (heap b) = true /\
       dev_vendor_id (heap b) = LDM_PCI_VENDOR_ID_INTEL /\
       dev_vendor_id (heap o) = LDM_PCI_VENDOR_ID_NVIDIA) /\
    (flag_set (gpu_type cfg) LDM_GPU_TYPE_OPTIMUS = true ->
     cfg = mkLdmGPUConfig (boot_device heap devices) (other_device heap devices)
             (Z.of_nat (length devices))
             (Z.lor LDM_GPU_TYPE_HYBRID LDM_GPU_TYPE_OPTIMUS)).
Proof.
  eexists. split; [apply new_is_cascade|].
  destruct (other_device heap devices) as [o|] eqn:Eo.
  2:{ rewrite cascade_no_other. cbn. split; [split|]; try discriminate.
      intros [b [o [_ [Bad _]]]]. discriminate. }
  destruct (other_device_facts _ _ _ Eo) as [_ [Ho _]].
  destruct (boot_device heap devices) as [b|] eqn:Eb.
  2:{ apply boot_device_none in Eb. subst devices. discriminate. }
  cascade_cases heap b o Ho;
    (split; [split|]);
    try discriminate; try reflexivity;
    try (intros _; exists b, o; repeat split; assumption);
    try (intros [b' [o' [[= <-] [[= <-] [? [? ?]]]]]]; vendor_clash).
Qed.

(** X7: the type is HYBRID alone exactly when the boot device carries the
    boot-VGA attribute and is an Intel or AMD device and the other device
    is an AMD device; the secondary device is then the other device. *)
Theorem amd_hybrid_exactly_when heap devices :
  exists cfg,
    ldm_gpu_config_new heap devices = Ret cfg /\
    (gpu_type cfg = LDM_GPU_TYPE_HYBRID <->
     exists b o,
       boot_device heap devices = Some b /\
       other_device heap devices = Some o /\
       dev_boot_vga (heap b) = true /\
       (dev_vendor_id (heap b) = LDM_PCI_VENDOR_ID_INTEL \/
        dev_vendor_id (heap b) = LDM_PCI_VENDOR_ID_AMD) /\
       dev_vendor_id (heap o) = LDM_PCI_VENDOR_ID_AMD) /\
    (gpu_type cfg = LDM_GPU_TYPE_HYBRID ->
     cfg = mkLdmGPUConfig (boot_device heap devices) (other_device heap devices)
             (Z.of_nat (length devices)) LDM_GPU_TYPE_HYBRID).
Proof.
  eexists. split; [apply new_is_cascade|].
  destruct (other_device heap devices) as [o|] eqn:Eo.
  2:{ rewrite cascade_no_other. cbn. split; [split|]; try discriminate.
      intros [b [o [_ [Bad _]]]]. discriminate. }
  destruct (other_device_facts _ _ _ Eo) as [_ [Ho _]].
  destruct (boot_device heap devices) as [b|] eqn:Eb.
  2:{ apply boot_device_none in Eb. subst devices. discriminate. }
  cascade_cases heap b o Ho;
    (split; [split|]);
    try discriminate; try reflexivity;
    try (intros _; exists b, o; repeat split; auto);
    try (intros [b' [o' [[= <-] [[= <-] [? [[?|?] ?]]]]]]; vendor_clash).
Qed.

(** X8: the SLI bit is set exactly when the boot device and the other
    device are both NVIDIA devices, whether or not the boot device carries
    the boot-VGA attribute; the type is then COMPOSITE|SLI and the
    secondary device stays NULL. *)
Theorem sli_exactly_when heap devices :
  exists cfg,
    ldm_gpu_config_new heap devices = Ret cfg /\
    (flag_set (gpu_type cfg) LDM_GPU_TYPE_SLI = true <->
     exists b o,
       boot_device heap devices = Some b /\
       other_device heap devices = Some o /\
       dev_vendor_id (heap b) = LDM_PCI_VENDOR_ID_NVIDIA /\
       dev_vendor_id (heap o) = LDM_PCI_VENDOR_ID_NVIDIA) /\
    (flag_set (gpu_type cfg) LDM_GPU_TYPE_SLI = true ->
     cfg = mkLdmGPUConfig (boot_device heap devices) None
             (Z.of_nat (length devices))
             (Z.lor LDM_GPU_TYPE_COMPOSITE LDM_GPU_TYPE_SLI)).
Proof.
  eexists. split; [apply new_is_cascade|].
  destruct (other_device heap devices) as [o|] eqn:Eo.
  2:{ rewrite cascade_no_other. cbn. split; [split|]; try discriminate.
      intros [b [o [_ [Bad _]]]]. discriminate. }
  destruct (other_device_facts _ _ _ Eo) as [_ [Ho _]].
  destruct (boot_device heap devices) as [b|] eqn:Eb.
  2:{ apply boot_device_none in Eb. subst devices. discriminate. }
  cascade_cases heap b o Ho;
    (split; [split|]);
    try discriminate; try reflexivity;
    try (intros _; exists b, o; repeat split; auto);
    try (intros [b' [o' [[= <-] [[= <-] [? ?]]]]]; vendor_clash).
Qed.

(** X9: the CROSSFIRE bit is set exactly when the boot device does not
    carry the boot-VGA attribute and it and the other device are both AMD
    devices.  No device of the array carries the attribute then, the
    primary device is the first device of the array and the secondary
    device stays NULL: an AMD pair with a boot-VGA device is HYBRID. *)
Theorem crossfire_exactly_when heap devices :
  exists cfg,
    ldm_gpu_config_new heap devices = Ret cfg /\
    (flag_set (gpu_type cfg) LDM_GPU_TYPE_CROSSFIRE = true <->
     exists b o,
       boot_device heap devices = Some b /\
       other_device heap devices = Some o /\
       dev_boot_vga (heap b) = false /\
       dev_vendor_id (heap b) = LDM_PCI_VENDOR_ID_AMD /\
       dev_vendor_id (heap o) = LDM_PCI_VENDOR_ID_AMD) /\
    (flag_set (gpu_type cfg) LDM_GPU_TYPE_CROSSFIRE = true ->
     (forall d, In d devices -> dev_boot_vga (heap d) = false) /\
     cfg = mkLdmGPUConfig (hd_error devices) None
             (Z.of_nat (length devices))
             (Z.lor LDM_GPU_TYPE_COMPOSITE LDM_GPU_TYPE_CROSSFIRE)).
Proof.
  eexists. split; [apply new_is_cascade|].
  destruct (other_device heap devices) as [o|] eqn:Eo.
  2:{ rewrite cascade_no_other. cbn. split; [split|]; try discriminate.
      intros [b [o [_ [Bad _]]]]. discriminate. }
  destruct (other_device_facts _ _ _ Eo) as [_ [Ho _]].
  destruct (boot_device heap devices) as [b|] eqn:Eb.
  2:{ apply boot_device_none in Eb. subst devices. discriminate. }
  assert (Hnone : dev_boot_vga (heap b) = false ->
                  (forall d, In d devices -> dev_boot_vga (heap d) = false) /\
                  hd_error devices = Some b).
  { intros Hb. destruct (boot_device_attr _ _ _ Eb) as [_ Hn].
    specialize (Hn Hb). split; [apply first_boot_vga_none; exact Hn|].
    unfold boot_device in Eb. rewrite Hn in Eb. exact Eb. }
  cascade_cases heap b o Ho;
    (split; [split|]);
    try discriminate; try reflexivity;
    try (intros _; exists b, o; repeat split; auto);
    try (intros [b' [o' [[= <-] [[= <-] [? [? ?]]]]]]; vendor_clash);
    try (intros _; destruct (Hnone eq_refl) as [Hall ->];
         split; [exact Hall | reflexivity]).
Qed.

(** ** The search *)

(** X1: the search never faults, and returns the first element of the
    array that is not [not_like] and whose boot-VGA attribute is the one
    asked for, or NULL when there is none. *)
Theorem search_boot_first_accepted heap devices vga_boot not_like :
  ldm_gpu_config_search_boot heap devices vga_boot not_like =
  Ret (find (search_accepts heap vga_boot not_like) devices).
Proof.
  apply search_boot_find.
Qed.

(** X2: a device the search returns sits in the array behind elements
    that are all [not_like] or carry the other attribute value; it is not
    [not_like] and carries the value asked for. *)
Theorem search_boot_found heap devices vga_boot not_like d :
  ldm_gpu_config_search_boot heap devices vga_boot not_like = Ret (Some d) ->
  exists before after,
    devices = before ++ d :: after /\
    Some d <> not_like /\
    dev_boot_vga (heap d) = vga_boot /\
    forall x, In x before ->
              Some x = not_like \/ dev_boot_vga (heap x) = negb vga_boot.
Proof.
  rewrite search_boot_find. intros [= E].
  destruct (find_first _ _ _ E) as [l1 [l2 [-> [Hd Hl1]]]].
  apply search_accepts_true in Hd. destruct Hd as [Hne Hb].
  exists l1, l2. repeat split; auto.
  intros x Hx. apply search_accepts_false. apply Hl1. exact Hx.
Qed.

Lemma search_boot_found_witness :
  ldm_gpu_config_search_boot optimus_laptop [2; 1]%positive true None
    = Ret (Some 1%positive) /\
  exists before after,
    [2; 1]%positive = before ++ 1%positive :: after /\
    Some 1%positive <> None /\
    dev_boot_vga (optimus_laptop 1%positive) = true /\
    forall x, In x before ->
              Some x = None \/ dev_boot_vga (optimus_laptop x) = negb true.
Proof.
  split; [reflexivity|].
  apply (search_boot_found optimus_laptop [2; 1]%positive true None 1%positive).
  reflexivity.
Defined.

(** X3: the search returns NULL exactly when every element of the array
    is [not_like] or carries the other attribute value. *)
Theorem search_boot_null_iff heap devices vga_boot not_like :
  ldm_gpu_config_search_boot heap devices vga_boot not_like = Ret None <->
  forall x, In x devices ->
            Some x = not_like \/ dev_boot_vga (heap x) = negb vga_boot.
Proof.
  rewrite search_boot_find. split.
  - intros [= E] x Hx. apply search_accepts_false.
    apply (find_none _ _ E x Hx).
  - intros H. f_equal.
    induction devices as [|y l IH]; [reflexivity|].
    cbn. replace (search_accepts heap vga_boot not_like y) with false.
    + apply IH. intros x Hx. apply H. now right.
    + symmetry. apply search_accepts_false. apply H. now left.
Qed.

(** ** The devices of the configuration *)

Lemma cascade_fields heap self p q :
  let cfg := analyze_cascade heap self p q in
  n_gpu cfg = n_gpu self /\
  (secondary cfg = secondary self /\ primary cfg = primary self \/
   secondary cfg = q /\ primary cfg = p /\ exists o, q = Some o).
Proof.
  unfold analyze_cascade.
  destruct (do_optimus_cases heap self p q) as [-> | [[o ->] ->]].
  2:{ cbn. split; [reflexivity|]. right. eauto. }
  destruct (do_amd_hybrid_cases heap self p q) as [-> | [[o ->] ->]].
  2:{ cbn. split; [reflexivity|]. right. eauto. }
  repeat match goal with
         | |- context [if ?c then _ else _] => destruct c
         end; cbn; auto.
Qed.

(** X4: for arrays of every length, the primary device is the first
    device that carries the boot-VGA attribute, or the first device of
    the array when none carries it, and the count is the length of the
    array. *)
Theorem primary_is_boot_device heap devices :
  exists cfg,
    ldm_gpu_config_new heap devices = Ret cfg /\
    primary cfg = boot_device heap devices /\
    ldm_gpu_config_count (Some cfg) = Ret (Z.of_nat (length devices)).
Proof.
  eexists. split; [apply new_is_cascade|].
  match goal with
  | |- context [analyze_cascade heap ?s ?p ?q] =>
      destruct (cascade_fields heap s p q) as [Hn [[_ Hp] | [_ [Hp _]]]]
  end; cbn in *; rewrite Hn; auto.
Qed.

(** X5: the secondary device is set exactly when the HYBRID bit is; it is
    then the other device, a device of the array without the boot-VGA
    attribute and different from the primary device, and the primary
    device carries the attribute. *)
Theorem secondary_iff_hybrid heap devices :
  exists cfg,
    ldm_gpu_config_new heap devices = Ret cfg /\
    (flag_set (gpu_type cfg) LDM_GPU_TYPE_HYBRID = true <->
     secondary cfg <> None) /\
    (forall s, secondary cfg = Some s ->
       other_device heap devices = Some s /\
       In s devices /\
       dev_boot_vga (heap s) = false /\
       primary cfg <> Some s /\
       exists b, primary cfg = Some b /\ dev_boot_vga (heap b) = true).
Proof.
  eexists. split; [apply new_is_cascade|].
  destruct (other_device heap devices) as [o|] eqn:Eo.
  2:{ rewrite cascade_no_other. cbn. split; [split|]; try discriminate.
      intros H. now contradiction H. }
  destruct (other_device_facts _ _ _ Eo) as [Hin [Ho Hne]].
  destruct (boot_device heap devices) as [b|] eqn:Eb.
  2:{ apply boot_device_none in Eb. subst devices. discriminate. }
  cascade_cases heap b o Ho;
    (split; [split|]);
    try discriminate; try reflexivity;
    try (intros H; now contradiction H);
    try (intros s [= <-]; repeat split; auto; exists b; split; auto).
Qed.

(** X10: the detection device of a hybrid configuration is the other
    device, an NVIDIA or AMD device without the boot-VGA attribute; the
    detection device of any other configuration is the boot device. *)
Theorem detection_device_of_analysis heap devices :
  exists cfg,
    ldm_gpu_config_new heap devices = Ret cfg /\
    (flag_set (gpu_type cfg) LDM_GPU_TYPE_HYBRID = true ->
     exists d,
       ldm_gpu_config_get_detection_device (Some cfg) = Ret (Some d) /\
       other_device heap devices = Some d /\
       dev_boot_vga (heap d) = false /\
       (dev_vendor_id (heap d) = LDM_PCI_VENDOR_ID_NVIDIA \/
        dev_vendor_id (heap d) = LDM_PCI_VENDOR_ID_AMD)) /\
    (flag_set (gpu_type cfg) LDM_GPU_TYPE_HYBRID = false ->
     ldm_gpu_config_get_detection_device (Some cfg) =
       Ret (boot_device heap devices)).
Proof.
  eexists. split; [apply new_is_cascade|].
  destruct (other_device heap devices) as [o|] eqn:Eo.
  2:{ rewrite cascade_no_other, detection_device_some. cbn.
      split; [discriminate | reflexivity]. }
  destruct (other_device_facts _ _ _ Eo) as [Hin [Ho Hne]].
  destruct (boot_device heap devices) as [b|] eqn:Eb.
  2:{ apply boot_device_none in Eb. subst devices. discriminate. }
  rewrite detection_device_some.
  cascade_cases heap b o Ho;
    split; try discriminate; try reflexivity;
    intros _; exists o; repeat split; auto.
Qed.

(** ** The type *)

(** X11: the type of an analysed configuration is one of five values, and
    it never has the HYBRID bit and the COMPOSITE bit together. *)
Theorem type_is_one_of_five heap devices :
  exists cfg,
    ldm_gpu_config_new heap devices = Ret cfg /\
    In (gpu_type cfg)
       [LDM_GPU_TYPE_SIMPLE;
        LDM_GPU_TYPE_HYBRID;
        Z.lor LDM_GPU_TYPE_HYBRID LDM_GPU_TYPE_OPTIMUS;
        Z.lor LDM_GPU_TYPE_COMPOSITE LDM_GPU_TYPE_SLI;
        Z.lor LDM_GPU_TYPE_COMPOSITE LDM_GPU_TYPE_CROSSFIRE] /\
    flag_set (gpu_type cfg) LDM_GPU_TYPE_HYBRID &&
    flag_set (gpu_type cfg) LDM_GPU_TYPE_COMPOSITE = false.
Proof.
  destruct (analyze_returns heap devices) as [cfg [E A]].
  exists cfg. split; [exact E|].
  destruct A; cbn; auto 10.
Qed.

(** ** Enumeration order and further devices *)

Lemma find_exists {A : Type} (f : A -> bool) (l : list A) (x : A) :
  In x l -> f x = true -> exists d, find f l = Some d.
Proof.
  intros Hin Fx. destruct (find f l) as [d|] eqn:E; [eauto|].
  rewrite (find_none _ _ E x Hin) in Fx. discriminate.
Qed.

Lemma cascade_count heap p s n m t b o :
  analyze_cascade heap (mkLdmGPUConfig p s m t) b o =
  set_n_gpu (analyze_cascade heap (mkLdmGPUConfig p s n t) b o) m.
Proof.
  unfold analyze_cascade, ldm_gpu_config_do_optimus,
    ldm_gpu_config_do_amd_hybrid.
  repeat match goal with
         | |- context [if ?c then _ else _] => destruct c
         end; reflexivity.
Qed.

(** X12: once an array holds a device with the boot-VGA attribute and a
    device without it, devices enumerated after them change the count and
    nothing else. *)
Theorem later_devices_only_counted heap devices extra b o :
  In b devices -> dev_boot_vga (heap b) = true ->
  In o devices -> dev_boot_vga (heap o) = false ->
  exists cfg,
    ldm_gpu_config_new heap devices = Ret cfg /\
    ldm_gpu_config_new heap (devices ++ extra) =
      Ret (set_n_gpu cfg (Z.of_nat (length (devices ++ extra)))).
Proof.
  intros Hb Hbv Ho Hov.
  destruct (find_exists (fun d => dev_boot_vga (heap d)) devices b Hb Hbv)
    as [b1 Eb1].
  assert (Eboot : boot_device heap (devices ++ extra) = boot_device heap devices).
  { unfold boot_device, first_boot_vga.
    rewrite (find_app_found _ _ extra _ Eb1), Eb1. reflexivity. }
  assert (Hb1 : dev_boot_vga (heap b1) = true)
    by (apply (find_some _ _ Eb1)).
  assert (Eb : boot_device heap devices = Some b1).
  { unfold boot_device, first_boot_vga. rewrite Eb1. reflexivity. }
  destruct (find_exists (search_accepts heap false (Some b1)) devices o Ho)
    as [o1 Eo1].
  { apply search_accepts_true. split; [congruence | exact Hov]. }
  assert (Eother : other_device heap (devices ++ extra)
                   = other_device heap devices).
  { unfold other_device. rewrite Eboot, Eb.
    rewrite (find_app_found _ _ extra _ Eo1), Eo1. reflexivity. }
  eexists. split; [apply new_is_cascade|].
  rewrite new_is_cascade, Eboot, Eother.
  f_equal. apply cascade_count.
Qed.

Lemma later_devices_only_counted_witness :
  (In 1%positive [1; 2]%positive /\
   dev_boot_vga (optimus_laptop 1%positive) = true /\
   In 2%positive [1; 2]%positive /\
   dev_boot_vga (optimus_laptop 2%positive) = false) /\
  exists cfg,
    ldm_gpu_config_new optimus_laptop [1; 2]%positive = Ret cfg /\
    ldm_gpu_config_new optimus_laptop ([1; 2]%positive ++ [3; 4]%positive) =
      Ret (set_n_gpu cfg
             (Z.of_nat (length ([1; 2]%positive ++ [3; 4]%positive)))).
Proof.
  split; [repeat split; cbn; auto|].
  apply (later_devices_only_counted optimus_laptop [1; 2]%positive
           [3; 4]%positive 1%positive 2%positive);
    cbn; auto.
Defined.

(** X13: for any two devices of which one carries the boot-VGA attribute
    and the other does not, whatever their vendors, the analysis returns
    the same configuration in either order of enumeration. *)
Theorem pair_any_order heap (a b : addr) :
  dev_boot_vga (heap a) = true -> dev_boot_vga (heap b) = false ->
  ldm_gpu_config_new heap [b; a] = ldm_gpu_config_new heap [a; b].
Proof.
  intros Ha Hb.
  pose proof (distinct_devices heap a b Ha Hb) as Hba.
  assert (Hab : Pos.eqb a b = false) by (rewrite Pos.eqb_sym; exact Hba).
  rewrite !new_is_cascade.
  assert (B1 : boot_device heap [a; b] = Some a)
    by (unfold boot_device, first_boot_vga; cbn; rewrite Ha; reflexivity).
  assert (B2 : boot_device heap [b; a] = Some a)
    by (unfold boot_device, first_boot_vga; cbn; rewrite Hb, Ha; reflexivity).
  assert (O1 : other_device heap [a; b] = Some b).
  { unfold other_device. rewrite B1. unfold search_accepts. cbn.
    rewrite Pos.eqb_refl, Hba, Hb. reflexivity. }
  assert (O2 : other_device heap [b; a] = Some b).
  { unfold other_device. rewrite B2. unfold search_accepts. cbn.
    rewrite Hba, Hb. reflexivity. }
  rewrite B1, B2, O1, O2. reflexivity.
Qed.

Lemma pair_any_order_witness :
  (dev_boot_vga (amd_laptop 1%positive) = true /\
   dev_boot_vga (amd_laptop 2%positive) = false) /\
  ldm_gpu_config_new amd_laptop [2; 1]%positive =
  ldm_gpu_config_new amd_laptop [1; 2]%positive.
Proof.
  split; [split; reflexivity|].
  apply (pair_any_order amd_laptop 1%positive 2%positive); reflexivity.
Defined.

(** ** Masks *)

Lemma has_type_true (s : LdmGPUConfig) (mask : Z) :
  ldm_gpu_config_has_type (Some s) mask = Ret true <->
  Z.land (gpu_type s) mask = mask.
Proof.
  unfold ldm_gpu_config_has_type, g_return_val_if_fail.
  destruct (Z.eqb_spec (Z.land (gpu_type s) mask) mask); split;
    congruence.
Qed.

Lemma land_lor_covers (t m1 m2 : Z) :
  Z.land t (Z.lor m1 m2) = Z.lor m1 m2 <->
  Z.land t m1 = m1 /\ Z.land t m2 = m2.
Proof.
  split.
  - intros H.
    assert (Hbit : forall n,
               Z.testbit t n && (Z.testbit m1 n || Z.testbit m2 n) =
               Z.testbit m1 n || Z.testbit m2 n).
    { intros n. rewrite <- Z.lor_spec, <- Z.land_spec, H. reflexivity. }
    split; apply Z.bits_inj; intros n; rewrite Z.land_spec;
      specialize (Hbit n);
      destruct (Z.testbit t n), (Z.testbit m1 n), (Z.testbit m2 n);
      cbn in *; congruence.
  - intros [H1 H2]. rewrite Z.land_lor_distr_r, H1, H2. reflexivity.
Qed.

(** X14: [has_type] answers TRUE for the zero mask (the value of SIMPLE)
    and for the configuration's own type, on every configuration; and it
    answers TRUE for the union of two masks exactly when it does for each
    of them. *)
Theorem has_type_masks (s : LdmGPUConfig) (m1 m2 : Z) :
  ldm_gpu_config_has_type (Some s) LDM_GPU_TYPE_SIMPLE = Ret true /\
  ldm_gpu_config_has_type (Some s) (gpu_type s) = Ret true /\
  (ldm_gpu_config_has_type (Some s) (Z.lor m1 m2) = Ret true <->
   ldm_gpu_config_has_type (Some s) m1 = Ret true /\
   ldm_gpu_config_has_type (Some s) m2 = Ret true).
Proof.
  rewrite !has_type_true. split; [|split].
  - apply Z.land_0_r.
  - apply Z.land_diag.
  - apply land_lor_covers.
Qed.

(** * Properties of the object: manager, properties, providers *)



Lemma object_new heap get_devices m devices :
  get_devices (Some m) = Some devices ->
  exists cfg,
    ldm_gpu_config_new heap devices = Ret cfg /\
    analyzed devices cfg /\
    Object.ldm_gpu_config_new heap get_devices (Some m) =
      Ret (Object.mkObject (Some m) cfg).
Proof.
  intros Hdev.
  destruct (analyze_returns heap devices) as [cfg [E A]].
  exists cfg. split; [exact E|]. split; [exact A|].
  unfold Object.ldm_gpu_config_new, Object.ldm_gpu_config_analyze.
  cbn. rewrite Hdev. cbn [deref].
  unfold ldm_gpu_config_new, ldm_gpu_config_constructed in E.
  rewrite E. reflexivity.
Qed.

(** X17: [ldm_gpu_config_new] on a manager whose device array is
    [devices] returns an object that holds this manager and the analysis
    of [devices], and counts its devices; on the NULL manager, and on a
    manager that returns no array, no object is returned. *)
Theorem new_holds_manager_and_analysis heap get_devices m devices :
  get_devices (Some m) = Some devices ->
  (exists self,
     Object.ldm_gpu_config_new heap get_devices (Some m) = Ret self /\
     Object.ldm_gpu_config_get_manager (Some self) = Ret (Some m) /\
     ldm_gpu_config_new heap devices = Ret (Object.state self) /\
     ldm_gpu_config_count (Some (Object.state self))
       = Ret (Z.of_nat (length devices))) /\
  Object.ldm_gpu_config_new heap get_devices None = Fault /\
  (forall m', get_devices (Some m') = None ->
              Object.ldm_gpu_config_new heap get_devices (Some m') = Fault).
Proof.
  intros Hdev. split; [|split].
  - destruct (object_new heap get_devices m devices Hdev) as [cfg [E [A ->]]].
    eexists. split; [reflexivity|]. cbn.
    repeat split; [exact E|].
    rewrite (analyzed_count _ _ A). reflexivity.
  - reflexivity.
  - intros m' Hnone.
    unfold Object.ldm_gpu_config_new, Object.ldm_gpu_config_analyze.
    cbn. rewrite Hnone. reflexivity.
Qed.

Lemma new_holds_manager_and_analysis_witness :
  sample_get_devices (Some 7%positive)
    = Some [1; 2]%positive /\
  exists self,
    Object.ldm_gpu_config_new optimus_laptop
      sample_get_devices (Some 7%positive) = Ret self /\
    Object.ldm_gpu_config_get_manager (Some self) = Ret (Some 7%positive) /\
    ldm_gpu_config_new optimus_laptop [1; 2]%positive
      = Ret (Object.state self) /\
    ldm_gpu_config_count (Some (Object.state self))
      = Ret (Z.of_nat (length [1; 2]%positive)).
Proof.
  split; [reflexivity|].
  apply (new_holds_manager_and_analysis optimus_laptop
           sample_get_devices 7%positive [1; 2]%positive).
  reflexivity.
Defined.

(** X18: [ldm_gpu_config_get_providers] never faults: on NULL it returns
    NULL, its check coming before the detection device is read, and on an
    object it returns what the manager gives for the detection device. *)
Theorem get_providers_total {Provider : Type}
    (get_providers : option addr -> LdmDevice_ptr -> option (list Provider))
    (self : Object.LdmGPUConfig) :
  Object.ldm_gpu_config_get_providers get_providers None = Ret None /\
  Object.ldm_gpu_config_get_providers get_providers (Some self) =
    Ret (get_providers (Object.manager self)
           (if flag_set (gpu_type (Object.state self)) LDM_GPU_TYPE_HYBRID
            then secondary (Object.state self)
            else primary (Object.state self))).
Proof.
  split; [reflexivity|].
  unfold Object.ldm_gpu_config_get_providers, g_return_val_if_fail.
  rewrite detection_device_some. reflexivity.
Qed.

(** X19: the providers of a new object are asked of its manager for a
    device of the manager's array when the array is not empty, and for
    the NULL device when it is empty. *)
Theorem providers_of_new_object {Provider : Type}
    (get_providers : option addr -> LdmDevice_ptr -> option (list Provider))
    heap get_devices m devices :
  get_devices (Some m) = Some devices ->
  exists self,
    Object.ldm_gpu_config_new heap get_devices (Some m) = Ret self /\
    (devices <> [] ->
     exists d, In d devices /\
       Object.ldm_gpu_config_get_providers get_providers (Some self) =
         Ret (get_providers (Some m) (Some d))) /\
    (devices = [] ->
     Object.ldm_gpu_config_get_providers get_providers (Some self) =
       Ret (get_providers (Some m) None)).
Proof.
  intros Hdev.
  destruct (object_new heap get_devices m devices Hdev) as [cfg [E [A ->]]].
  eexists. split; [reflexivity|].
  unfold Object.ldm_gpu_config_get_providers, g_return_val_if_fail.
  rewrite detection_device_some. cbn [Object.state Object.manager bind].
  split.
  - intros Hne. destruct (analyzed_detection _ _ A Hne) as [d [Hin ->]].
    exists d. split; [exact Hin | reflexivity].
  - intros ->. inversion A; subst; try discriminate;
      try (cbn in *; lia); reflexivity.
Qed.

Lemma providers_of_new_object_witness :
  sample_get_devices (Some 7%positive)
    = Some [1; 2]%positive /\
  exists self,
    Object.ldm_gpu_config_new optimus_laptop
      sample_get_devices (Some 7%positive) = Ret self /\
    ([1; 2]%positive <> [] ->
     exists d, In d [1; 2]%positive /\
       Object.ldm_gpu_config_get_providers
         sample_get_providers (Some self) =
         Ret (sample_get_providers (Some 7%positive) (Some d))) /\
    ([1; 2]%positive = [] ->
     Object.ldm_gpu_config_get_providers
       sample_get_providers (Some self) =
       Ret (sample_get_providers (Some 7%positive) None)).
Proof.
  split; [reflexivity|].
  apply (providers_of_new_object
           sample_get_providers
           optimus_laptop sample_get_devices
           7%positive [1; 2]%positive).
  reflexivity.
Defined.
